(** * Verification of the grammar bot (main.go)

    A shallow embedding of [main.go]: the Telegram message and entity types
    the bot reads, the configurations it sends, and the functions
    [checkGrammar], [handleMessage], [handleCommand], [Start] and [main].
    Calls to the outside world (the Gemini model, the Telegram send call,
    the log, [log.Fatal]) are recorded as effects in a writer monad; the
    answers of the model and of the send call are parameters. *)

From Stdlib Require Import String Ascii List ZArith Bool Lia.
Import ListNotations.
Open Scope string_scope.

(** ** Go helpers *)

Definition nl : string := String (ascii_of_nat 10) EmptyString.
Definition dq : string := String (ascii_of_nat 34) EmptyString.

(** [strings.HasPrefix s prefix]. *)
Definition HasPrefix (s pfx : string) : bool := String.prefix pfx s.

(** [strings.Index s sep] for a one-byte separator. *)
Fixpoint IndexByte (s : string) (c : ascii) : option nat :=
  match s with
  | EmptyString => None
  | String a s' =>
      if Ascii.eqb a c then Some 0
      else option_map S (IndexByte s' c)
  end.

(** ** The Telegram types read by the bot (tgbotapi v5) *)

Record MessageEntity := {
  entity_Type : string;
  entity_Offset : nat;
  entity_Length : nat
}.

Record Chat := { Chat_ID : Z }.

Record Message := {
  MessageID : Z;
  Message_Chat : Chat;
  Text : string;
  Entities : list MessageEntity
}.

Record Update := { Update_Message : option Message }.

(** A message as Telegram delivers it: every entity is non-empty and lies
    inside the text. *)
Definition entity_wf (text : string) (e : MessageEntity) : bool :=
  Nat.leb 1 (entity_Length e) && Nat.leb (entity_Offset e + entity_Length e) (String.length text).

Definition message_wf (m : Message) : bool :=
  forallb (entity_wf (Text m)) (Entities m).

(** [MessageEntity.IsCommand]. *)
Definition entity_IsCommand (e : MessageEntity) : bool :=
  String.eqb (entity_Type e) "bot_command".

(** [Message.IsCommand]: the first entity is a bot command at offset 0. *)
Definition IsCommand (m : Message) : bool :=
  match Entities m with
  | [] => false
  | e :: _ => Nat.eqb (entity_Offset e) 0 && entity_IsCommand e
  end.

(** [Message.CommandWithAt]: [m.Text[1:entity.Length]]. *)
Definition CommandWithAt (m : Message) : string :=
  if negb (IsCommand m) then ""
  else match Entities m with
       | [] => ""
       | e :: _ => substring 1 (entity_Length e - 1) (Text m)
       end.

(** [Message.Command]: the command without its [@botname] suffix. *)
Definition Command (m : Message) : string :=
  let command := CommandWithAt m in
  match IndexByte command "@"%char with
  | Some i => substring 0 i command
  | None => command
  end.

(** ** The configurations the bot sends *)

Record MessageConfig := {
  mc_ChatID : Z;
  mc_Text : string;
  mc_ReplyToMessageID : Z;  (* 0: no reply threading *)
  mc_ParseMode : string     (* "": plain text *)
}.

Record ChatActionConfig := {
  ca_ChatID : Z;
  ca_Action : string
}.

Inductive Chattable :=
| CMessage (c : MessageConfig)
| CChatAction (c : ChatActionConfig).

Definition NewMessage (chatID : Z) (text : string) : MessageConfig :=
  {| mc_ChatID := chatID; mc_Text := text;
     mc_ReplyToMessageID := 0; mc_ParseMode := "" |}.

Definition NewChatAction (chatID : Z) (action : string) : ChatActionConfig :=
  {| ca_ChatID := chatID; ca_Action := action |}.

Definition ChatTyping : string := "typing".

(** [msg.ReplyToMessageID = id] *)
Definition setReplyTo (id : Z) (c : MessageConfig) : MessageConfig :=
  {| mc_ChatID := mc_ChatID c; mc_Text := mc_Text c;
     mc_ReplyToMessageID := id; mc_ParseMode := mc_ParseMode c |}.

(** [msg.ParseMode = mode] *)
Definition setParseMode (mode : string) (c : MessageConfig) : MessageConfig :=
  {| mc_ChatID := mc_ChatID c; mc_Text := mc_Text c;
     mc_ReplyToMessageID := mc_ReplyToMessageID c; mc_ParseMode := mode |}.

Definition chattable_ChatID (c : Chattable) : Z :=
  match c with
  | CMessage m => mc_ChatID m
  | CChatAction a => ca_ChatID a
  end.

(** ** Effects and the writer monad *)

Inductive Effect :=
| ESend (c : Chattable)                (* gb.bot.Send *)
| EGenerate (model prompt : string)    (* gb.genAI.Models.GenerateContent *)
| ELog (line : string)                 (* log.Printf, log.Println *)
| EFatal (line : string)               (* log.Fatal: log, then exit *)
| ENewBot (token key : string).        (* NewGrammarBot *)

Definition M (A : Type) : Type := (list Effect * A)%type.

Definition ret {A} (a : A) : M A := ([], a).

Definition bind {A B} (c : M A) (k : A -> M B) : M B :=
  let (t1, a) := c in let (t2, b) := k a in (app t1 t2, b).

Definition tell (es : list Effect) : M unit := (es, tt).

Notation "x <- c ;; k" := (bind c (fun x => k))
  (at level 61, c at next level, right associativity).
Notation "c ;;; k" := (bind c (fun _ => k))
  (at level 61, right associativity).

(** The messages sent in a trace (chat actions left out). *)
Fixpoint sent_messages (tr : list Effect) : list MessageConfig :=
  match tr with
  | [] => []
  | ESend (CMessage c) :: tr' => c :: sent_messages tr'
  | _ :: tr' => sent_messages tr'
  end.

Definition is_generate (e : Effect) : bool :=
  match e with EGenerate _ _ => true | _ => false end.

Definition is_fatal (e : Effect) : bool :=
  match e with EFatal _ => true | _ => false end.

(** ** Templates of main.go *)

Definition gemini_model : string := "gemini-2.5-flash-preview-05-20".

(** The format string of [checkGrammar] up to its [%s]. *)
Definition grammar_prompt_prefix : string :=
"System:
You are a world-class English language assistant specializing in grammar and vocabulary correction for Telegram messages using MarkdownV2. When given a user’s sentence, you must:

1. Identify all grammar, spelling, punctuation or word-choice mistakes.  
2. Escape every special MarkdownV2 character (_ * [ ] ( ) ~  > # + - = | { } . !) by prefixing it with a backslash.  
3. Wrap each original mistake in ~strikethrough~ and each correction in **bold**, using valid MarkdownV2 syntax.  
4. Preserve the original meaning, tone and style.  
5. Return exactly the single corrected sentence with those inline edits—no explanations, comments or extra text.

User:
".

(** [fmt.Sprintf(format, text)]: [%s] is the last verb of the format. *)
Definition grammar_prompt (text : string) : string :=
  grammar_prompt_prefix ++ text.

Definition welcomeText : string :=
"👋 Welcome to Grammar Check Bot!

Send me any text message and I'll check it for grammar, spelling, and punctuation errors.

I'll show corrections with:
- ~strikethrough~ for original mistakes
- **bold** for corrections

Commands:
/start - Show this welcome message
/help - Show help information".

Definition helpText : string :=
"🔍 How to use Grammar Check Bot:

1. Simply send me any text message
2. I'll analyze it for grammar, spelling, and punctuation errors
3. You'll receive a corrected version with highlighted changes

📝 Example:
Your text: " ++ dq ++ "I goes to store yesterday" ++ dq ++ "
My response: " ++ dq ++ "I ~goes~ **went** to ~store~ **the store** yesterday" ++ dq ++ "

💡 This helps you verify that your message conveys what you intended before sending it elsewhere!".

Definition unknownCommandText : string :=
  "Unknown command. Use /help to see available commands.".

Definition apologyText : string :=
  "Sorry, I encountered an error while checking your grammar. Please try again later.".

(** ["📝 Grammar check for your message:\n\n%s"] up to its [%s]. *)
Definition responseLabel : string :=
  "📝 Grammar check for your message:" ++ nl ++ nl.

Definition MarkdownV2 : string := "MarkdownV2".

(** ** The bot *)

Section GrammarBot.

(** [gb.genAI.Models.GenerateContent(ctx, model, prompt, nil)] followed by
    [result.Text()]: [inl err] when the call fails, [inr text] otherwise. *)
Variable generate : string -> string -> string + string.

(** [gb.bot.Send(c)]: [Some err] when the transport fails. *)
Variable send : Chattable -> option string.

Definition botSend (c : Chattable) : M (option string) :=
  tell [ESend c] ;;; ret (send c).

(** [checkGrammar]: the corrected text and the error ([None] for nil). *)
Definition checkGrammar (text : string) : M (string * option string) :=
  let prompt := grammar_prompt text in
  tell [EGenerate gemini_model prompt] ;;;
  match generate gemini_model prompt with
  | inl err => ret ("", Some ("failed to generate content: " ++ err))
  | inr result => ret (result, None)
  end.

Definition handleMessage (message : Message) : M unit :=
  if String.eqb (Text message) "" || HasPrefix (Text message) "/" then ret tt
  else
    let chatID := Chat_ID (Message_Chat message) in
    let typingAction := NewChatAction chatID ChatTyping in
    botSend (CChatAction typingAction) ;;;
    r <- checkGrammar (Text message) ;;
    let (correctedText, err) := r in
    match err with
    | Some e =>
        tell [ELog ("Error checking grammar: " ++ e)] ;;;
        let errorMsg := setReplyTo (MessageID message) (NewMessage chatID apologyText) in
        botSend (CMessage errorMsg) ;;;
        ret tt
    | None =>
        let responseText := responseLabel ++ correctedText in
        let msg := setParseMode MarkdownV2
                     (setReplyTo (MessageID message) (NewMessage chatID responseText)) in
        sendErr <- botSend (CMessage msg) ;;
        match sendErr with
        | Some e => tell [ELog ("Error sending message: " ++ e)]
        | None => ret tt
        end
    end.

Definition handleCommand (message : Message) : M unit :=
  let chatID := Chat_ID (Message_Chat message) in
  let cmd := Command message in
  if String.eqb cmd "start" then
    let msg := setParseMode MarkdownV2 (NewMessage chatID welcomeText) in
    botSend (CMessage msg) ;;; ret tt
  else if String.eqb cmd "help" then
    let msg := setParseMode MarkdownV2 (NewMessage chatID helpText) in
    botSend (CMessage msg) ;;; ret tt
  else
    let msg := NewMessage chatID unknownCommandText in
    botSend (CMessage msg) ;;; ret tt.

(** One iteration of the loop of [Start]. *)
Definition processUpdate (update : Update) : M unit :=
  match Update_Message update with
  | None => ret tt
  | Some m => if IsCommand m then handleCommand m else handleMessage m
  end.

(** [for update := range updates { ... }] over the updates received. *)
Fixpoint runUpdates (updates : list Update) : M unit :=
  match updates with
  | [] => ret tt
  | u :: us => processUpdate u ;;; runUpdates us
  end.

Definition Start (userName : string) (updates : list Update) : M (option string) :=
  tell [ELog ("Bot authorized on account " ++ userName)] ;;;
  runUpdates updates ;;;
  ret None.

(** [os.Getenv]: the empty string when the variable is unset. *)
Variable Getenv : string -> string.

(** [NewGrammarBot(telegramToken, geminiAPIKey)]: [Some err] on failure. *)
Variable newGrammarBot : string -> string -> option string.

Definition main (userName : string) (updates : list Update) : M unit :=
  let telegramToken := Getenv "TELEGRAM_BOT_TOKEN" in
  let geminiAPIKey := Getenv "GEMINI_API_KEY" in
  if String.eqb telegramToken "" then
    tell [EFatal "TELEGRAM_BOT_TOKEN environment variable is required"]
  else if String.eqb geminiAPIKey "" then
    tell [EFatal "GEMINI_API_KEY environment variable is required"]
  else
    tell [ENewBot telegramToken geminiAPIKey] ;;;
    match newGrammarBot telegramToken geminiAPIKey with
    | Some err => tell [EFatal err]
    | None =>
        tell [ELog "Starting Grammar Check Bot..."] ;;;
        err <- Start userName updates ;;
        match err with
        | Some e => tell [EFatal e]
        | None => ret tt
        end
    end.

End GrammarBot.

(** ** Building the bot *)

Section Construction.

(** [tgbotapi.NewBotAPI(token)]: [Some err] on failure. *)
Variable NewBotAPI : string -> option string.

(** [genai.NewClient(ctx, &genai.ClientConfig{APIKey: key, ...})]:
    [Some err] on failure. *)
Variable NewClient : string -> option string.

(** [NewGrammarBot]: the error it returns, [None] for a bot. *)
Definition NewGrammarBot (telegramToken geminiAPIKey : string) : option string :=
  match NewBotAPI telegramToken with
  | Some err => Some ("failed to create telegram bot: " ++ err)
  | None =>
      match NewClient geminiAPIKey with
      | Some err => Some ("failed to create genai client: " ++ err)
      | None => None
      end
  end.

End Construction.

(** ** Classifying updates *)

(** The update carries a text [handleMessage] sends to the model. *)
Definition reaches_model (u : Update) : bool :=
  match Update_Message u with
  | None => false
  | Some m =>
      negb (IsCommand m) && negb (String.eqb (Text m) "") && negb (HasPrefix (Text m) "/")
  end.

(** The update gets a message back. *)
Definition answered (u : Update) : bool :=
  match Update_Message u with
  | None => false
  | Some m => IsCommand m || reaches_model u
  end.

Definition no_fatal (tr : list Effect) : bool :=
  forallb (fun e => negb (is_fatal e)) tr.

(** ** Concrete collaborators used by the examples *)

Definition sampleSend (c : Chattable) : option string := None.

Definition sampleGenerate (reply : string) (model prompt : string) : string + string :=
  inr reply.

Definition failingGenerate (model prompt : string) : string + string :=
  inl "quota exceeded".

Definition textMessage (id chat : Z) (text : string) : Message :=
  {| MessageID := id; Message_Chat := {| Chat_ID := chat |};
     Text := text; Entities := [] |}.

Definition commandMessage (id chat : Z) (text : string) : Message :=
  {| MessageID := id; Message_Chat := {| Chat_ID := chat |}; Text := text;
     Entities := [ {| entity_Type := "bot_command"; entity_Offset := 0;
                      entity_Length := String.length text |} ] |}.

(** Substring test, on [String.index]. *)
Definition contains (needle hay : string) : bool :=
  match String.index 0 needle hay with Some _ => true | None => false end.

(** Closes [In (ESend c) tr -> chattable_ChatID c = ...] on an explicit
    trace [tr]. *)
Ltac sent_to_chat :=
  repeat match goal with
         | H : _ \/ _ |- _ => destruct H as [H|H]
         | H : False |- _ => destruct H
         | H : ESend _ = ESend _ |- _ => injection H as <-; reflexivity
         | H : _ = ESend _ |- _ => discriminate H
         end.

(** ** Monad lemmas *)

Lemma fst_bind {A B} (c : M A) (k : A -> M B) :
  fst (bind c k) = (fst c ++ fst (k (snd c)))%list.
Proof. destruct c as [t a]; simpl; destruct (k a); reflexivity. Qed.

Lemma snd_bind {A B} (c : M A) (k : A -> M B) :
  snd (bind c k) = snd (k (snd c)).
Proof. destruct c as [t a]; simpl; destruct (k a); reflexivity. Qed.

Lemma sent_messages_app (t1 t2 : list Effect) :
  sent_messages (t1 ++ t2) = (sent_messages t1 ++ sent_messages t2)%list.
Proof.
  induction t1 as [|e t1 IH]; [reflexivity|].
  destruct e as [[c|c]| | | |]; simpl; rewrite ?IH; reflexivity.
Qed.

(** ** Free-text messages *)

Section FreeText.
Variable generate : string -> string -> string + string.
Variable send : Chattable -> option string.

(** A free-text message goes to [handleMessage]. *)
Lemma processUpdate_text (m : Message) :
  IsCommand m = false ->
  processUpdate generate send {| Update_Message := Some m |} = handleMessage generate send m.
Proof. intros H; unfold processUpdate; simpl; rewrite H; reflexivity. Qed.

Lemma handleMessage_guard (m : Message) :
  Text m <> "" -> HasPrefix (Text m) "/" = false ->
  (String.eqb (Text m) "" || HasPrefix (Text m) "/")%bool = false.
Proof.
  intros Hne Hnp; rewrite Hnp, orb_false_r; apply String.eqb_neq; exact Hne.
Qed.

(** The trace of [handleMessage] on a message that passes the guard. *)
Lemma handleMessage_trace (m : Message) :
  Text m <> "" -> HasPrefix (Text m) "/" = false ->
  let chatID := Chat_ID (Message_Chat m) in
  let prompt := grammar_prompt (Text m) in
  fst (handleMessage generate send m) =
  (ESend (CChatAction (NewChatAction chatID ChatTyping))
   :: EGenerate gemini_model prompt
   :: match generate gemini_model prompt with
      | inl err =>
          [ELog ("Error checking grammar: failed to generate content: " ++ err);
           ESend (CMessage (setReplyTo (MessageID m) (NewMessage chatID apologyText)))]
      | inr result =>
          let msg := setParseMode MarkdownV2
                       (setReplyTo (MessageID m) (NewMessage chatID (responseLabel ++ result))) in
          ESend (CMessage msg)
          :: match send (CMessage msg) with
             | Some e => [ELog ("Error sending message: " ++ e)]
             | None => []
             end
      end)%list.
Proof.
  intros Hne Hnp chatID prompt.
  unfold handleMessage; rewrite (handleMessage_guard m Hne Hnp).
  unfold checkGrammar, botSend, bind, tell, ret; fold prompt chatID.
  destruct (generate gemini_model prompt) as [err|result]; cbn [fst snd app].
  - reflexivity.
  - destruct (send _); reflexivity.
Qed.

End FreeText.

Lemma handleMessage_skip generate send (m : Message) :
  (String.eqb (Text m) "" || HasPrefix (Text m) "/")%bool = true ->
  fst (handleMessage generate send m) = [].
Proof. intros H; unfold handleMessage; rewrite H; reflexivity. Qed.

Lemma runUpdates_cons generate send (u : Update) (us : list Update) :
  fst (runUpdates generate send (u :: us)) =
  (fst (processUpdate generate send u) ++ fst (runUpdates generate send us))%list.
Proof. simpl runUpdates; apply fst_bind. Qed.

(** ** Claims *)

(** C1: a free-text message for which the model answers [R] gets exactly
    one message back: the label ["📝 Grammar check for your message:\n\n"]
    followed by [R], in the same chat, threaded to the message, and
    rendered as MarkdownV2. *)
Theorem grammar_reply_on_success generate send (m : Message) (R : string) :
  Text m <> "" -> HasPrefix (Text m) "/" = false -> IsCommand m = false ->
  generate gemini_model (grammar_prompt (Text m)) = inr R ->
  sent_messages (fst (processUpdate generate send {| Update_Message := Some m |})) =
  [ {| mc_ChatID := Chat_ID (Message_Chat m);
       mc_Text := "📝 Grammar check for your message:" ++ nl ++ nl ++ R;
       mc_ReplyToMessageID := MessageID m;
       mc_ParseMode := "MarkdownV2" |} ].
Proof.
  intros Hne Hnp Hnc Hgen.
  rewrite processUpdate_text by exact Hnc.
  rewrite (handleMessage_trace generate send m Hne Hnp); cbv zeta; rewrite Hgen.
  destruct (send _); reflexivity.
Qed.

Lemma grammar_reply_on_success_witness :
  sent_messages (fst (processUpdate
    (sampleGenerate "I ~~goes~~ **went** to ~~store~~ **the store** yesterday") sampleSend
    {| Update_Message := Some (textMessage 7 42 "I goes to store yesterday") |})) =
  [ {| mc_ChatID := 42;
       mc_Text := "📝 Grammar check for your message:" ++ nl ++ nl ++
                  "I ~~goes~~ **went** to ~~store~~ **the store** yesterday";
       mc_ReplyToMessageID := 7;
       mc_ParseMode := "MarkdownV2" |} ].
Proof.
  apply (grammar_reply_on_success
           (sampleGenerate "I ~~goes~~ **went** to ~~store~~ **the store** yesterday")
           sampleSend (textMessage 7 42 "I goes to store yesterday")
           "I ~~goes~~ **went** to ~~store~~ **the store** yesterday");
    [discriminate | reflexivity | reflexivity | reflexivity].
Defined.

(** C2: a free-text message for which the model call fails gets exactly
    one message back, the apology, threaded to the message; the error is
    logged, nothing is fatal, and the loop goes on with the next update. *)
Theorem apology_on_failure generate send (m : Message) (err : string) (us : list Update) :
  Text m <> "" -> HasPrefix (Text m) "/" = false -> IsCommand m = false ->
  generate gemini_model (grammar_prompt (Text m)) = inl err ->
  let u := {| Update_Message := Some m |} in
  let tr := fst (processUpdate generate send u) in
  sent_messages tr =
    [ {| mc_ChatID := Chat_ID (Message_Chat m);
         mc_Text := "Sorry, I encountered an error while checking your grammar. Please try again later.";
         mc_ReplyToMessageID := MessageID m;
         mc_ParseMode := "" |} ]
  /\ In (ELog ("Error checking grammar: failed to generate content: " ++ err)) tr
  /\ forallb (fun e => negb (is_fatal e)) tr = true
  /\ fst (runUpdates generate send (u :: us)) = (tr ++ fst (runUpdates generate send us))%list.
Proof.
  intros Hne Hnp Hnc Hgen u tr.
  assert (Htr : tr = [ESend (CChatAction (NewChatAction (Chat_ID (Message_Chat m)) ChatTyping));
                      EGenerate gemini_model (grammar_prompt (Text m));
                      ELog ("Error checking grammar: failed to generate content: " ++ err);
                      ESend (CMessage (setReplyTo (MessageID m)
                               (NewMessage (Chat_ID (Message_Chat m)) apologyText)))]).
  { unfold tr, u; rewrite processUpdate_text by exact Hnc.
    rewrite (handleMessage_trace generate send m Hne Hnp); cbv zeta; rewrite Hgen; reflexivity. }
  split; [|split; [|split]].
  - rewrite Htr; reflexivity.
  - rewrite Htr; simpl; tauto.
  - rewrite Htr; reflexivity.
  - apply runUpdates_cons.
Qed.

Lemma apology_on_failure_witness :
  let m := textMessage 7 42 "I goes to store yesterday" in
  let u := {| Update_Message := Some m |} in
  let tr := fst (processUpdate failingGenerate sampleSend u) in
  sent_messages tr =
    [ {| mc_ChatID := 42;
         mc_Text := "Sorry, I encountered an error while checking your grammar. Please try again later.";
         mc_ReplyToMessageID := 7;
         mc_ParseMode := "" |} ]
  /\ In (ELog ("Error checking grammar: failed to generate content: " ++ "quota exceeded")) tr
  /\ forallb (fun e => negb (is_fatal e)) tr = true
  /\ fst (runUpdates failingGenerate sampleSend [u; u]) =
     (tr ++ fst (runUpdates failingGenerate sampleSend [u]))%list.
Proof.
  apply (apology_on_failure failingGenerate sampleSend
           (textMessage 7 42 "I goes to store yesterday") "quota exceeded"
           [ {| Update_Message := Some (textMessage 7 42 "I goes to store yesterday") |} ]);
    [discriminate | reflexivity | reflexivity | reflexivity].
Defined.

Lemma processUpdate_command generate send (m : Message) :
  IsCommand m = true ->
  processUpdate generate send {| Update_Message := Some m |} = handleCommand send m.
Proof. intros H; unfold processUpdate; simpl; rewrite H; reflexivity. Qed.

(** The trace of [handleCommand]: one send, chosen by [Command]. *)
Lemma handleCommand_trace send (m : Message) :
  let chatID := Chat_ID (Message_Chat m) in
  fst (handleCommand send m) =
  [ESend (CMessage
     (if String.eqb (Command m) "start" then setParseMode MarkdownV2 (NewMessage chatID welcomeText)
      else if String.eqb (Command m) "help" then setParseMode MarkdownV2 (NewMessage chatID helpText)
      else NewMessage chatID unknownCommandText))].
Proof.
  intros chatID; unfold handleCommand, botSend, bind, tell, ret; fold chatID.
  destruct (String.eqb (Command m) "start"); [reflexivity|].
  destruct (String.eqb (Command m) "help"); reflexivity.
Qed.

(** C3 (counterexample): ["/ hello"] begins with the command marker, but
    Telegram marks no command entity in it; [handleMessage] drops it and
    no reply at all is sent. *)
Lemma slash_text_without_command_entity_dropped :
  let m := textMessage 7 42 "/ hello" in
  HasPrefix (Text m) "/" = true /\ message_wf m = true /\ IsCommand m = false /\
  sent_messages (fst (processUpdate (sampleGenerate "x") sampleSend
                        {| Update_Message := Some m |})) = [].
Proof. vm_compute; repeat split. Qed.

(** C3 (amended): a message Telegram marks as a command (first entity a
    [bot_command] at offset 0) is handled by [handleCommand]: its trace is
    exactly one send, of the welcome text for ["start"], the help text for
    ["help"], and the unknown-command notice for any other command, with no
    call to the model. A message that begins with ["/"] without being
    marked as a command gets no reply and no call at all. *)
Theorem command_routing generate send (m : Message) :
  let tr := fst (processUpdate generate send {| Update_Message := Some m |}) in
  (IsCommand m = true ->
   exists c, tr = [ESend (CMessage c)] /\
     mc_ChatID c = Chat_ID (Message_Chat m) /\
     ((Command m = "start" /\ mc_Text c = welcomeText) \/
      (Command m = "help" /\ mc_Text c = helpText) \/
      (Command m <> "start" /\ Command m <> "help" /\ mc_Text c = unknownCommandText)))
  /\ (IsCommand m = false -> HasPrefix (Text m) "/" = true -> tr = []).
Proof.
  intros tr; split.
  - intros Hc; unfold tr; rewrite processUpdate_command by exact Hc.
    rewrite handleCommand_trace; cbv zeta.
    eexists; split; [reflexivity|].
    destruct (String.eqb_spec (Command m) "start") as [Hs|Hs];
      [split; [reflexivity|]; left; split; [exact Hs|reflexivity]|].
    destruct (String.eqb_spec (Command m) "help") as [Hh|Hh];
      (split; [reflexivity|]; right).
    + left; split; [exact Hh|reflexivity].
    + right; repeat split; assumption.
  - intros Hc Hp; unfold tr; rewrite processUpdate_text by exact Hc.
    apply handleMessage_skip; rewrite Hp, orb_true_r; reflexivity.
Qed.

Lemma command_routing_witness :
  (exists c, fst (processUpdate failingGenerate sampleSend
                {| Update_Message := Some (commandMessage 7 42 "/help") |}) = [ESend (CMessage c)] /\
     mc_ChatID c = 42%Z /\
     ((Command (commandMessage 7 42 "/help") = "start" /\ mc_Text c = welcomeText) \/
      (Command (commandMessage 7 42 "/help") = "help" /\ mc_Text c = helpText) \/
      (Command (commandMessage 7 42 "/help") <> "start" /\
       Command (commandMessage 7 42 "/help") <> "help" /\ mc_Text c = unknownCommandText)))
  /\ fst (processUpdate failingGenerate sampleSend
            {| Update_Message := Some (textMessage 7 42 "/ hello") |}) = [].
Proof.
  split.
  - apply (proj1 (command_routing failingGenerate sampleSend (commandMessage 7 42 "/help")));
      reflexivity.
  - apply (proj2 (command_routing failingGenerate sampleSend (textMessage 7 42 "/ hello")));
      reflexivity.
Defined.

(** C4 (counterexample): the reply to the unrecognised command ["/foo"] is
    sent as plain text, without MarkdownV2. *)
Lemma unknown_command_reply_plain :
  let m := commandMessage 7 42 "/foo" in
  IsCommand m = true /\ message_wf m = true /\
  sent_messages (fst (processUpdate (sampleGenerate "x") sampleSend
                        {| Update_Message := Some m |})) =
  [ {| mc_ChatID := 42; mc_Text := unknownCommandText;
       mc_ReplyToMessageID := 0; mc_ParseMode := "" |} ].
Proof. vm_compute; repeat split. Qed.

(** C4 (amended): every reply of [handleCommand] has no reply-to
    identifier; the replies to ["start"] and ["help"] are rendered as
    MarkdownV2, the unknown-command notice as plain text. *)
Theorem command_reply_modes generate send (m : Message) :
  IsCommand m = true ->
  forall c, In (ESend c) (fst (processUpdate generate send {| Update_Message := Some m |})) ->
  exists mc, c = CMessage mc /\ mc_ReplyToMessageID mc = 0%Z /\
    ((Command m = "start" \/ Command m = "help") -> mc_ParseMode mc = "MarkdownV2") /\
    (Command m <> "start" -> Command m <> "help" -> mc_ParseMode mc = "").
Proof.
  intros Hc c Hin.
  rewrite processUpdate_command in Hin by exact Hc; rewrite handleCommand_trace in Hin.
  destruct Hin as [Heq|[]]; injection Heq as <-.
  eexists; split; [reflexivity|].
  destruct (String.eqb_spec (Command m) "start") as [Hs|Hs];
    [repeat split; intros; try reflexivity; contradiction|].
  destruct (String.eqb_spec (Command m) "help") as [Hh|Hh];
    repeat split; intros; try reflexivity; try contradiction.
  destruct H; contradiction.
Qed.

Lemma command_reply_modes_witness :
  exists mc, CMessage (NewMessage 42 unknownCommandText) = CMessage mc /\
    mc_ReplyToMessageID mc = 0%Z /\
    ((Command (commandMessage 7 42 "/foo") = "start" \/
      Command (commandMessage 7 42 "/foo") = "help") -> mc_ParseMode mc = "MarkdownV2") /\
    (Command (commandMessage 7 42 "/foo") <> "start" ->
     Command (commandMessage 7 42 "/foo") <> "help" -> mc_ParseMode mc = "").
Proof.
  apply (command_reply_modes (sampleGenerate "x") sampleSend (commandMessage 7 42 "/foo"));
    [reflexivity | left; reflexivity].
Defined.

(** C5: a message carrying an unrecognised command gets exactly one
    message back, whose body is the literal unknown-command notice. *)
Theorem unknown_command_notice generate send (m : Message) :
  IsCommand m = true -> Command m <> "start" -> Command m <> "help" ->
  map mc_Text (sent_messages (fst (processUpdate generate send {| Update_Message := Some m |}))) =
  ["Unknown command. Use /help to see available commands."].
Proof.
  intros Hc Hs Hh.
  rewrite processUpdate_command by exact Hc; rewrite handleCommand_trace.
  apply String.eqb_neq in Hs, Hh; rewrite Hs, Hh; reflexivity.
Qed.

Lemma unknown_command_notice_witness :
  map mc_Text (sent_messages (fst (processUpdate (sampleGenerate "x") sampleSend
                {| Update_Message := Some (commandMessage 7 42 "/foo@GrammarBot") |}))) =
  ["Unknown command. Use /help to see available commands."].
Proof.
  apply (unknown_command_notice (sampleGenerate "x") sampleSend
           (commandMessage 7 42 "/foo@GrammarBot")); [reflexivity | discriminate | discriminate].
Defined.

(** C6: everything sent while handling an update (welcome, help,
    unknown-command notice, correction, apology, typing action) goes to the
    chat of the update's message. *)
Theorem replies_target_origin_chat generate send (u : Update) (m : Message) (c : Chattable) :
  Update_Message u = Some m ->
  In (ESend c) (fst (processUpdate generate send u)) ->
  chattable_ChatID c = Chat_ID (Message_Chat m).
Proof.
  intros Hu Hin; unfold processUpdate in Hin; rewrite Hu in Hin.
  destruct (IsCommand m).
  - rewrite handleCommand_trace in Hin; destruct Hin as [Heq|[]]; injection Heq as <-.
    destruct (String.eqb _ "start"); [reflexivity|].
    destruct (String.eqb _ "help"); reflexivity.
  - destruct ((String.eqb (Text m) "" || HasPrefix (Text m) "/")%bool) eqn:Hg.
    + rewrite handleMessage_skip in Hin by exact Hg; destruct Hin.
    + apply orb_false_iff in Hg; destruct Hg as [He Hp].
      apply String.eqb_neq in He.
      rewrite (handleMessage_trace generate send m He Hp) in Hin; cbv zeta in Hin.
      destruct (generate _ _) as [err|result].
      * simpl in Hin; sent_to_chat.
      * destruct (send _); simpl in Hin; sent_to_chat.
Qed.

Lemma replies_target_origin_chat_witness :
  chattable_ChatID (CChatAction (NewChatAction 42 ChatTyping)) = 42%Z.
Proof.
  apply (replies_target_origin_chat (sampleGenerate "x") sampleSend
           {| Update_Message := Some (textMessage 7 42 "hello") |}
           (textMessage 7 42 "hello")); [reflexivity | left; reflexivity].
Defined.

(** C7: [checkGrammar t] makes one call to the model, with the fixed
    prefix of the template followed by [t] unchanged; the prefix instructs
    the model to identify mistakes, escape the MarkdownV2 characters, mark
    mistakes as strikethrough and corrections as bold, keep meaning and tone,
    and return only the corrected sentence. *)
Theorem grammar_prompt_template generate (t : string) :
  fst (checkGrammar generate t) = [EGenerate gemini_model (grammar_prompt_prefix ++ t)] /\
  forallb (fun s => contains s grammar_prompt_prefix)
    [ "Identify all grammar, spelling, punctuation or word-choice mistakes.";
      "Escape every special MarkdownV2 character";
      "by prefixing it with a backslash.";
      "Wrap each original mistake in ~strikethrough~ and each correction in **bold**";
      "Preserve the original meaning, tone and style.";
      "Return exactly the single corrected sentence with those inline edits";
      "no explanations, comments or extra text." ] = true.
Proof.
  split.
  - unfold checkGrammar, bind, tell, ret.
    destruct (generate _ _); reflexivity.
  - vm_compute; reflexivity.
Qed.

(** C8: with either secret unset, [main] only logs a fatal message; with
    both set, it goes on to build the bot from them. *)
Theorem startup_requires_secrets generate send Getenv newGrammarBot
    (userName : string) (updates : list Update) :
  let tr := fst (main generate send Getenv newGrammarBot userName updates) in
  ((Getenv "TELEGRAM_BOT_TOKEN" = "" \/ Getenv "GEMINI_API_KEY" = "") ->
   exists msg, tr = [EFatal msg])
  /\ (Getenv "TELEGRAM_BOT_TOKEN" <> "" -> Getenv "GEMINI_API_KEY" <> "" ->
      exists rest, tr = ENewBot (Getenv "TELEGRAM_BOT_TOKEN") (Getenv "GEMINI_API_KEY") :: rest).
Proof.
  intros tr; unfold tr, main; split.
  - intros [Ht|Hk].
    + rewrite Ht; eexists; reflexivity.
    + destruct (String.eqb _ ""); [eexists; reflexivity|].
      rewrite Hk; eexists; reflexivity.
  - intros Ht Hk; apply String.eqb_neq in Ht, Hk; rewrite Ht, Hk.
    rewrite fst_bind; eexists; reflexivity.
Qed.

Lemma startup_requires_secrets_witness :
  (exists msg, fst (main (sampleGenerate "x") sampleSend (fun _ => "") (fun _ _ => None)
                      "GrammarBot" []) = [EFatal msg])
  /\ (exists rest, fst (main (sampleGenerate "x") sampleSend (fun _ => "secret") (fun _ _ => None)
                        "GrammarBot" []) = ENewBot "secret" "secret" :: rest).
Proof.
  split.
  - apply (proj1 (startup_requires_secrets (sampleGenerate "x") sampleSend (fun _ => "")
                    (fun _ _ => None) "GrammarBot" [])).
    left; reflexivity.
  - apply (proj2 (startup_requires_secrets (sampleGenerate "x") sampleSend (fun _ => "secret")
                    (fun _ _ => None) "GrammarBot" [])); discriminate.
Defined.

(** C9: a well-formed message with empty text produces no effect at all,
    so in particular no reply. *)
Theorem empty_text_no_reply generate send (m : Message) :
  message_wf m = true -> Text m = "" ->
  fst (processUpdate generate send {| Update_Message := Some m |}) = [].
Proof.
  intros Hwf He.
  assert (Hc : IsCommand m = false).
  { unfold message_wf in Hwf; unfold IsCommand.
    destruct (Entities m) as [|e es]; [reflexivity|].
    simpl in Hwf; apply andb_true_iff in Hwf as [Hw _].
    unfold entity_wf in Hw; rewrite He in Hw.
    apply andb_true_iff in Hw as [H1 H2].
    apply Nat.leb_le in H1; apply Nat.leb_le in H2; simpl in H2; lia. }
  rewrite processUpdate_text by exact Hc.
  apply handleMessage_skip; rewrite He; reflexivity.
Qed.

Lemma empty_text_no_reply_witness :
  fst (processUpdate (sampleGenerate "x") sampleSend
         {| Update_Message := Some (textMessage 7 42 "") |}) = [].
Proof.
  apply (empty_text_no_reply (sampleGenerate "x") sampleSend (textMessage 7 42 ""));
    reflexivity.
Defined.

(** C10: [checkGrammar] returns either a result with no error, or an error
    with the empty string; and [handleMessage] sends a message carrying the
    result of [checkGrammar] only when there is no error. *)
Theorem checkGrammar_except generate send (m : Message) :
  (forall t, snd (snd (checkGrammar generate t)) = None \/
             (exists e, snd (snd (checkGrammar generate t)) = Some e /\
                        fst (snd (checkGrammar generate t)) = ""))
  /\ (Text m <> "" -> HasPrefix (Text m) "/" = false ->
      forall c, In (ESend (CMessage c)) (fst (handleMessage generate send m)) ->
      mc_Text c = responseLabel ++ fst (snd (checkGrammar generate (Text m))) ->
      snd (snd (checkGrammar generate (Text m))) = None).
Proof.
  split.
  - intros t; unfold checkGrammar, bind, tell, ret.
    destruct (generate _ _); simpl; [right; eexists; split; reflexivity | left; reflexivity].
  - intros Hne Hnp c Hin Hbody.
    rewrite (handleMessage_trace generate send m Hne Hnp) in Hin; cbv zeta in Hin.
    unfold checkGrammar, bind, tell, ret in Hbody |- *.
    destruct (generate _ _) as [err|result]; [|reflexivity].
    simpl in Hin, Hbody.
    destruct Hin as [H|[H|[H|[H|[]]]]]; try discriminate H.
    injection H as <-; vm_compute in Hbody; discriminate Hbody.
Qed.

Lemma checkGrammar_except_witness :
  (forall t, snd (snd (checkGrammar failingGenerate t)) = None \/
             (exists e, snd (snd (checkGrammar failingGenerate t)) = Some e /\
                        fst (snd (checkGrammar failingGenerate t)) = ""))
  /\ (forall c, In (ESend (CMessage c))
                  (fst (handleMessage failingGenerate sampleSend (textMessage 7 42 "hi"))) ->
      mc_Text c = responseLabel ++ fst (snd (checkGrammar failingGenerate "hi")) ->
      snd (snd (checkGrammar failingGenerate "hi")) = None).
Proof.
  pose proof (checkGrammar_except failingGenerate sampleSend (textMessage 7 42 "hi")) as [H1 H2].
  split; [exact H1|].
  apply H2; [discriminate | reflexivity].
Defined.

(** ** Further properties of the code *)

Lemma count_generate_app (t1 t2 : list Effect) :
  length (filter is_generate (t1 ++ t2)) =
  length (filter is_generate t1) + length (filter is_generate t2).
Proof. rewrite filter_app, length_app; reflexivity. Qed.

Lemma no_fatal_app (t1 t2 : list Effect) :
  no_fatal (t1 ++ t2) = no_fatal t1 && no_fatal t2.
Proof. unfold no_fatal; apply forallb_app. Qed.

(** What one update leads to: the number of model calls, the number of
    messages sent, and no fatal effect. *)
Lemma processUpdate_shape generate send (u : Update) :
  length (filter is_generate (fst (processUpdate generate send u))) =
    (if reaches_model u then 1 else 0) /\
  length (sent_messages (fst (processUpdate generate send u))) =
    (if answered u then 1 else 0) /\
  no_fatal (fst (processUpdate generate send u)) = true.
Proof.
  unfold answered, reaches_model; destruct (Update_Message u) as [m|] eqn:Hu.
  2:{ unfold processUpdate; rewrite Hu; repeat split. }
  replace u with {| Update_Message := Some m |} by (destruct u; simpl in Hu; subst; reflexivity).
  destruct (IsCommand m) eqn:Hc; simpl.
  - rewrite processUpdate_command, handleCommand_trace by exact Hc.
    destruct (String.eqb _ "start"); [repeat split|].
    destruct (String.eqb _ "help"); repeat split.
  - rewrite processUpdate_text by exact Hc.
    destruct (String.eqb (Text m) "") eqn:He; simpl.
    + rewrite handleMessage_skip by (rewrite He; reflexivity); repeat split.
    + destruct (HasPrefix (Text m) "/") eqn:Hp; simpl.
      * rewrite handleMessage_skip by (rewrite Hp, orb_true_r; reflexivity); repeat split.
      * apply String.eqb_neq in He.
        rewrite (handleMessage_trace generate send m He Hp); cbv zeta.
        destruct (generate _ _); [repeat split|].
        destruct (send _); repeat split.
Qed.


(** The update loop calls the model exactly once for each update whose
    message is a non-empty text that is not a command and does not begin
    with ["/"], and never for any other update. *)
Theorem runUpdates_model_calls generate send (us : list Update) :
  length (filter is_generate (fst (runUpdates generate send us))) =
  length (filter reaches_model us).
Proof.
  induction us as [|u us IH]; [reflexivity|].
  rewrite runUpdates_cons, count_generate_app, IH.
  destruct (processUpdate_shape generate send u) as [H _]; rewrite H.
  simpl; destruct (reaches_model u); reflexivity.
Qed.

(** The update loop sends exactly one message for each command and for
    each text that reaches the model, and none for the other updates
    (updates without a message, empty texts, texts beginning with ["/"]
    that are not commands); the "typing" actions are not messages. *)
Theorem runUpdates_replies generate send (us : list Update) :
  length (sent_messages (fst (runUpdates generate send us))) =
  length (filter answered us).
Proof.
  induction us as [|u us IH]; [reflexivity|].
  rewrite runUpdates_cons, sent_messages_app, length_app, IH.
  destruct (processUpdate_shape generate send u) as [_ [H _]]; rewrite H.
  simpl; destruct (answered u); reflexivity.
Qed.

(** No update, whatever the model and the send call answer, makes the
    update loop fatal. *)
Theorem runUpdates_no_fatal generate send (us : list Update) :
  no_fatal (fst (runUpdates generate send us)) = true.
Proof.
  induction us as [|u us IH]; [reflexivity|].
  rewrite runUpdates_cons, no_fatal_app, IH, andb_true_r.
  apply (processUpdate_shape generate send u).
Qed.

(** With both secrets set and the bot built, [main] builds the bot, logs
    its two start lines and then runs the update loop over every update;
    the run has no fatal effect. *)
Theorem main_serves_updates generate send Getenv newGrammarBot
    (userName : string) (updates : list Update) :
  Getenv "TELEGRAM_BOT_TOKEN" <> "" -> Getenv "GEMINI_API_KEY" <> "" ->
  newGrammarBot (Getenv "TELEGRAM_BOT_TOKEN") (Getenv "GEMINI_API_KEY") = None ->
  fst (main generate send Getenv newGrammarBot userName updates) =
    (ENewBot (Getenv "TELEGRAM_BOT_TOKEN") (Getenv "GEMINI_API_KEY")
     :: ELog "Starting Grammar Check Bot..."
     :: ELog ("Bot authorized on account " ++ userName)
     :: fst (runUpdates generate send updates))%list
  /\ no_fatal (fst (main generate send Getenv newGrammarBot userName updates)) = true.
Proof.
  intros Ht Hk Hb.
  assert (Htr : fst (main generate send Getenv newGrammarBot userName updates) =
    (ENewBot (Getenv "TELEGRAM_BOT_TOKEN") (Getenv "GEMINI_API_KEY")
     :: ELog "Starting Grammar Check Bot..."
     :: ELog ("Bot authorized on account " ++ userName)
     :: fst (runUpdates generate send updates))%list).
  { unfold main; apply String.eqb_neq in Ht, Hk; rewrite Ht, Hk, Hb.
    unfold Start, bind, tell, ret.
    destruct (runUpdates generate send updates) as [t []]; simpl.
    rewrite !app_nil_r; reflexivity. }
  split; [exact Htr|].
  rewrite Htr; apply runUpdates_no_fatal.
Qed.

Lemma main_serves_updates_witness :
  fst (main (sampleGenerate "ok") sampleSend (fun _ => "secret") (fun _ _ => None)
         "GrammarBot" [ {| Update_Message := None |} ]) =
    (ENewBot "secret" "secret"
     :: ELog "Starting Grammar Check Bot..."
     :: ELog ("Bot authorized on account " ++ "GrammarBot")
     :: fst (runUpdates (sampleGenerate "ok") sampleSend [ {| Update_Message := None |} ]))%list
  /\ no_fatal (fst (main (sampleGenerate "ok") sampleSend (fun _ => "secret") (fun _ _ => None)
                      "GrammarBot" [ {| Update_Message := None |} ])) = true.
Proof.
  apply (main_serves_updates (sampleGenerate "ok") sampleSend (fun _ => "secret")
           (fun _ _ => None) "GrammarBot" [ {| Update_Message := None |} ]);
    [discriminate | discriminate | reflexivity].
Defined.




(** When [NewGrammarBot] fails, [main] ends with that error as a fatal log
    line right after trying to build the bot: no update is ever read, so no
    message is sent and the model is never called. *)
Theorem main_construction_failure generate send Getenv NewBotAPI NewClient
    (userName : string) (updates : list Update) (err : string) :
  Getenv "TELEGRAM_BOT_TOKEN" <> "" -> Getenv "GEMINI_API_KEY" <> "" ->
  NewGrammarBot NewBotAPI NewClient (Getenv "TELEGRAM_BOT_TOKEN") (Getenv "GEMINI_API_KEY") = Some err ->
  fst (main generate send Getenv (NewGrammarBot NewBotAPI NewClient) userName updates) =
  [ENewBot (Getenv "TELEGRAM_BOT_TOKEN") (Getenv "GEMINI_API_KEY"); EFatal err].
Proof.
  intros Ht Hk Hb; unfold main.
  apply String.eqb_neq in Ht, Hk; rewrite Ht, Hk, Hb; reflexivity.
Qed.

Lemma main_construction_failure_witness :
  fst (main (sampleGenerate "ok") sampleSend (fun _ => "secret")
         (NewGrammarBot (fun _ => Some "Not Found") (fun _ => None)) "GrammarBot" []) =
  [ENewBot "secret" "secret"; EFatal ("failed to create telegram bot: " ++ "Not Found")].
Proof.
  apply (main_construction_failure (sampleGenerate "ok") sampleSend (fun _ => "secret")
           (fun _ => Some "Not Found") (fun _ => None) "GrammarBot" []
           ("failed to create telegram bot: " ++ "Not Found"));
    [discriminate | discriminate | reflexivity].
Defined.

(** When sending the correction fails, [handleMessage] logs the send
    error as its last effect, and sends the correction once: no retry and
    no plain-text fallback. *)
Theorem correction_send_failure_logged generate send (m : Message) (R e : string) :
  Text m <> "" -> HasPrefix (Text m) "/" = false ->
  generate gemini_model (grammar_prompt (Text m)) = inr R ->
  send (CMessage (setParseMode MarkdownV2
          (setReplyTo (MessageID m) (NewMessage (Chat_ID (Message_Chat m))
                                       (responseLabel ++ R))))) = Some e ->
  exists pre, fst (handleMessage generate send m) =
              (pre ++ [ELog ("Error sending message: " ++ e)])%list
  /\ length (sent_messages (fst (handleMessage generate send m))) = 1.
Proof.
  intros Hne Hnp Hgen Hsend.
  rewrite (handleMessage_trace generate send m Hne Hnp); cbv zeta; rewrite Hgen, Hsend.
  eexists; split; [|reflexivity].
  match goal with |- (?a :: ?b :: ?c :: [?d])%list = _ => instantiate (1 := [a; b; c]) end.
  reflexivity.
Qed.

Lemma correction_send_failure_logged_witness :
  exists pre, fst (handleMessage (sampleGenerate "ok") (fun _ => Some "Bad Request")
                 (textMessage 7 42 "hi")) =
              (pre ++ [ELog ("Error sending message: " ++ "Bad Request")])%list
  /\ length (sent_messages (fst (handleMessage (sampleGenerate "ok") (fun _ => Some "Bad Request")
                                   (textMessage 7 42 "hi")))) = 1.
Proof.
  apply (correction_send_failure_logged (sampleGenerate "ok") (fun _ => Some "Bad Request")
           (textMessage 7 42 "hi") "ok" "Bad Request");
    [discriminate | reflexivity | reflexivity | reflexivity].
Defined.

(** When the model call fails, what [handleMessage] does does not depend
    on the send call's answers: a failed apology (or typing action) is not
    logged nor retried. *)
Theorem apology_send_result_ignored generate send1 send2 (m : Message) (err : string) :
  Text m <> "" -> HasPrefix (Text m) "/" = false ->
  generate gemini_model (grammar_prompt (Text m)) = inl err ->
  fst (handleMessage generate send1 m) = fst (handleMessage generate send2 m).
Proof.
  intros Hne Hnp Hgen.
  rewrite (handleMessage_trace generate send1 m Hne Hnp),
          (handleMessage_trace generate send2 m Hne Hnp); cbv zeta; rewrite Hgen.
  reflexivity.
Qed.

Lemma apology_send_result_ignored_witness :
  fst (handleMessage failingGenerate (fun _ => Some "Forbidden") (textMessage 7 42 "hi")) =
  fst (handleMessage failingGenerate sampleSend (textMessage 7 42 "hi")).
Proof.
  apply (apology_send_result_ignored failingGenerate (fun _ => Some "Forbidden") sampleSend
           (textMessage 7 42 "hi") "quota exceeded");
    [discriminate | reflexivity | reflexivity].
Defined.

Lemma IndexByte_app_at (c1 c2 : string) :
  IndexByte c1 "@"%char = None ->
  IndexByte (c1 ++ String "@"%char c2) "@"%char = Some (String.length c1).
Proof.
  induction c1 as [|a c1 IH]; simpl; [reflexivity|].
  destruct (Ascii.eqb a "@"%char); [discriminate|].
  destruct (IndexByte c1 "@"%char); [discriminate|].
  intros _; rewrite IH by reflexivity; reflexivity.
Qed.

Lemma substring_prefix (c1 c2 : string) :
  substring 0 (String.length c1) (c1 ++ c2) = c1.
Proof.
  induction c1 as [|a c1 IH]; simpl; [destruct c2; reflexivity|].
  rewrite IH; reflexivity.
Qed.

Lemma Command_at (m : Message) (c1 c2 : string) :
  CommandWithAt m = c1 ++ String "@"%char c2 -> IndexByte c1 "@"%char = None ->
  Command m = c1.
Proof.
  intros Hw Hi; unfold Command; rewrite Hw, IndexByte_app_at by exact Hi.
  apply substring_prefix.
Qed.

Lemma Command_plain (m : Message) :
  IndexByte (CommandWithAt m) "@"%char = None -> Command m = CommandWithAt m.
Proof. intros Hi; unfold Command; rewrite Hi; reflexivity. Qed.

(** A command addressed to a bot, [/name@bot], is answered as the bare
    command [/name] in the same chat: [handleCommand] drops the [@bot]
    suffix and does not check which bot is named. *)
Theorem command_with_bot_suffix send (m m' : Message) (name bot : string) :
  CommandWithAt m = name ++ String "@"%char bot ->
  CommandWithAt m' = name ->
  IndexByte name "@"%char = None ->
  Chat_ID (Message_Chat m) = Chat_ID (Message_Chat m') ->
  fst (handleCommand send m) = fst (handleCommand send m').
Proof.
  intros Hm Hm' Hi Hc.
  rewrite !handleCommand_trace, (Command_at m name bot Hm Hi), (Command_plain m'), Hm', Hc
    by (rewrite Hm'; exact Hi).
  reflexivity.
Qed.

Lemma command_with_bot_suffix_witness :
  fst (handleCommand sampleSend (commandMessage 7 42 "/help@SomeOtherBot")) =
  fst (handleCommand sampleSend (commandMessage 8 42 "/help")).
Proof.
  apply (command_with_bot_suffix sampleSend (commandMessage 7 42 "/help@SomeOtherBot")
           (commandMessage 8 42 "/help") "help" "SomeOtherBot");
    reflexivity.
Defined.

